(** * react-learning: the Docusaurus site configuration and the shipped lesson files

    The repository ships two TypeScript modules ([website/sidebars.ts] and the
    Docusaurus site configuration that follows it) and a set of markdown
    lessons.  Both modules are object literals; the only expressions in them
    that are not literals are [new Date().getFullYear()] inside a template
    literal and two member accesses on the imported binding [prismThemes].

    The modules are embedded as Rocq values of record types that follow the
    Docusaurus type names, evaluated in a small completion monad so that the
    one operation that can throw (member access on [undefined] or [null]) is
    visible.  The shipped markdown files are embedded as an inventory of
    their paths, front-matter and headings, and the state logic that the
    lessons develop in their code blocks is embedded in [Lessons]. *)

From Stdlib Require Import ZArith Lia.
From stdpp Require Import base option list strings pretty gmap.

#[local] Set Warnings "-register-all".

Local Open Scope string_scope.
Local Open Scope list_scope.

(** ** A minimal JavaScript run time *)

Module Js.

Inductive Error :=
| TypeError (msg : string).

(** The outcome of evaluating an expression: a value, or a thrown error. *)
Inductive Completion (A : Type) :=
| Normal (a : A)
| Throw (e : Error).
Arguments Normal {A} a.
Arguments Throw {A} e.

#[global] Instance completion_ret : MRet Completion := @Normal.
#[global] Instance completion_bind : MBind Completion :=
  fun A B f m => match m with Normal a => f a | Throw e => Throw e end.

Definition is_normal {A} (m : Completion A) : bool :=
  match m with Normal _ => true | Throw _ => false end.

(** Values an imported binding can hold. *)
Inductive Value :=
| VUndefined
| VNull
| VBool (b : bool)
| VNumber (n : Z)
| VString (s : string)
| VArray (elems : list Value)
| VObject (props : list (string * Value)).

Fixpoint assoc {A} (k : string) (l : list (string * A)) : option A :=
  match l with
  | [] => None
  | (k', v) :: rest => if String.eqb k k' then Some v else assoc k rest
  end.

(** [v.k] for a key [k] that no built-in prototype defines: reading a
    property of [undefined] or [null] throws a TypeError, an own property
    of an object is returned, and everything else reads as [undefined]. *)
Definition get_member (v : Value) (k : string) : Completion Value :=
  match v with
  | VUndefined => Throw (TypeError ("Cannot read properties of undefined (reading '" +:+ k +:+ "')"))
  | VNull => Throw (TypeError ("Cannot read properties of null (reading '" +:+ k +:+ "')"))
  | VObject props => Normal (default VUndefined (assoc k props))
  | _ => Normal VUndefined
  end.



(** [`${n}`] for an integral Number of moderate size: its decimal digits,
    with a leading minus sign for negative numbers. *)
Definition number_to_string (n : Z) : string := pretty n.

(** What a run supplies to a module: the calendar year that
    [new Date().getFullYear()] returns, and the [themes] object that the
    installed [prism-react-renderer] exports (the package's type
    declaration makes it an object from theme names to themes). *)
Record Env := {
  fullYear : Z;
  prism_themes : list (string * Value)
}.

End Js.

(** ** [website/sidebars.ts] *)

Module Sidebars.

(** A sidebar item is a document identifier (written as a bare string in
    the source) or a category; Docusaurus allows categories to nest. *)
Inductive SidebarItem :=
| Doc (id : string)
| Category (label : string) (collapsed : bool) (items : list SidebarItem).

(** [SidebarsConfig]: an object from sidebar names to item lists. *)
Definition SidebarsConfig := list (string * list SidebarItem).

Definition sidebars : SidebarsConfig :=
  [ ("courseSidebar",
     [ Doc "intro";
       Category "Part 1: React Fundamentals" false
         [ Doc "chapters/00-react-architecture";
           Doc "chapters/01-setup-first-component";
           Doc "chapters/02-state-and-events";
           Doc "chapters/03-component-composition";
           Doc "chapters/04-side-effects-lifecycle";
           Doc "chapters/05-context-global-state";
           Doc "chapters/06-custom-hooks" ];
       Category "Part 2: Routing & Forms" true
         [ Doc "chapters/07-react-router";
           Doc "chapters/08-forms-validation" ];
       Category "Part 3: Tailwind CSS" true
         [ Doc "chapters/09-tailwind-fundamentals";
           Doc "chapters/10-advanced-tailwind" ];
       Category "Part 4: shadcn/ui" true
         [ Doc "chapters/11-shadcn-setup-core";
           Doc "chapters/12-shadcn-complex-components";
           Doc "chapters/13-data-display";
           Doc "chapters/14-shadcn-forms";
           Doc "chapters/15-theming-polish" ];
       Category "Part 5: Production" true
         [ Doc "chapters/16-performance";
           Doc "chapters/17-testing" ] ]) ].

(** Evaluating the module in a run: the literal has no sub-expression
    that reads the environment or can throw. *)
Definition evaluate (env : Js.Env) : Js.Completion SidebarsConfig :=
  Js.Normal sidebars.

(** The sidebar named [courseSidebar]; a missing key reads as no items. *)
Definition courseSidebar : list SidebarItem :=
  default [] (Js.assoc "courseSidebar" sidebars).

(** *** Traversals used to state properties of a sidebar *)

(** Document identifiers of a sidebar in display order, at any depth. *)
Fixpoint item_doc_ids (it : SidebarItem) : list string :=
  match it with
  | Doc id => [id]
  | Category _ _ items => flat_map item_doc_ids items
  end.

Definition doc_ids (items : list SidebarItem) : list string :=
  flat_map item_doc_ids items.

Definition is_doc (it : SidebarItem) : bool :=
  match it with Doc _ => true | Category _ _ _ => false end.

(** A category all of whose items are document identifiers. *)
Definition is_flat_category (it : SidebarItem) : bool :=
  match it with
  | Doc _ => false
  | Category _ _ items => forallb is_doc items
  end.

(** Labels of the categories of a sidebar, at any depth. *)
Fixpoint item_category_labels (it : SidebarItem) : list string :=
  match it with
  | Doc _ => []
  | Category label _ items => label :: flat_map item_category_labels items
  end.

Definition category_labels (items : list SidebarItem) : list string :=
  flat_map item_category_labels items.

Definition digit_value (c : Ascii.ascii) : option nat :=
  let n := Ascii.nat_of_ascii c in
  if (48 <=? n)%nat && (n <=? 57)%nat then Some (n - 48)%nat else None.

(** The chapter number of an identifier [chapters/NN-...]. *)
Definition chapter_number (id : string) : option nat :=
  if String.prefix "chapters/" id then
    match String.get 9 id, String.get 10 id, String.get 11 id with
    | Some d1, Some d2, Some dash =>
        match digit_value d1, digit_value d2 with
        | Some a, Some b =>
            if (Ascii.nat_of_ascii dash =? 45)%nat then Some (10 * a + b)%nat else None
        | _, _ => None
        end
    | _, _, _ => None
    end
  else None.

End Sidebars.

(** ** The Docusaurus site configuration (second module of [website/sidebars.ts]) *)

Module Docusaurus.
Import Js.

(** A setting that is either switched off with [false] or given options. *)
Inductive OrFalse (A : Type) :=
| IsFalse
| Options (a : A).
Arguments IsFalse {A}.
Arguments Options {A} a.

Module Future.
Record t := { v4 : bool }.
End Future.

Module I18n.
Record t := { defaultLocale : string; locales : list string }.
End I18n.

Module MarkdownConfig.
Record t := { mermaid : bool }.
End MarkdownConfig.

Module DocsOptions.
Record t := { sidebarPath : string; editUrl : string; routeBasePath : string }.
End DocsOptions.

Module ThemeOptions.
Record t := { customCss : string }.
End ThemeOptions.

Module PresetOptions.
Record t := {
  docs : DocsOptions.t;
  blog : OrFalse (list (string * Value));
  theme : ThemeOptions.t
}.
End PresetOptions.

Module ColorMode.
Record t := { defaultMode : string; respectPrefersColorScheme : bool }.
End ColorMode.

Module Logo.
Record t := { alt : string; src : string }.
End Logo.

(** Navbar items: [type] and [sidebarId] are present on the sidebar entry,
    [href] on the two external links. *)
Module NavbarItem.
Record t := {
  type : option string;
  sidebarId : option string;
  href : option string;
  position : string;
  label : string
}.
End NavbarItem.

Module Navbar.
Record t := { title : string; logo : Logo.t; items : list NavbarItem.t }.
End Navbar.

(** Footer links carry either an internal route ([to]) or an [href]. *)
Module FooterLinkItem.
Record t := { label : string; to : option string; href : option string }.
End FooterLinkItem.

Module FooterLinks.
Record t := { title : string; items : list FooterLinkItem.t }.
End FooterLinks.

Module Footer.
Record t := { style : string; links : list FooterLinks.t; copyright : string }.
End Footer.

Module Prism.
Record t := { theme : Value; darkTheme : Value; additionalLanguages : list string }.
End Prism.

Module ThemeConfig.
Record t := {
  image : string;
  colorMode : ColorMode.t;
  navbar : Navbar.t;
  footer : Footer.t;
  prism : Prism.t
}.
End ThemeConfig.

Module Config.
Record t := {
  title : string;
  tagline : string;
  favicon : string;
  future : Future.t;
  url : string;
  baseUrl : string;
  organizationName : string;
  projectName : string;
  onBrokenLinks : string;
  i18n : I18n.t;
  markdown : MarkdownConfig.t;
  themes : list string;
  presets : list (string * PresetOptions.t);
  themeConfig : ThemeConfig.t
}.
End Config.

Definition internal_link (label to : string) : FooterLinkItem.t :=
  {| FooterLinkItem.label := label; FooterLinkItem.to := Some to; FooterLinkItem.href := None |}.

Definition external_link (label href : string) : FooterLinkItem.t :=
  {| FooterLinkItem.label := label; FooterLinkItem.to := None; FooterLinkItem.href := Some href |}.

(** The template literal of [footer.copyright]; [year] is what
    [new Date().getFullYear()] returned. *)
Definition copyright_text (year : Z) : string :=
  "Built with React 19 in mind. Last updated " +:+ number_to_string year +:+ ".".

(** The module body.  [year] is the result of [new Date().getFullYear()]
    at evaluation time and [prismThemes] the value of the binding imported
    from [prism-react-renderer]; properties are evaluated in source order. *)
Definition config (year : Z) (prismThemes : Value) : Completion Config.t :=
  let copyright := copyright_text year in
  github ← get_member prismThemes "github";
  dracula ← get_member prismThemes "dracula";
  mret {|
    Config.title := "Learn React by Building";
    Config.tagline := "A project-based React 19 curriculum — from mental models to production UI";
    Config.favicon := "img/favicon.ico";
    Config.future := {| Future.v4 := true |};
    Config.url := "https://bobby-openclaw.github.io";
    Config.baseUrl := "/react-learning/";
    Config.organizationName := "bobby-openclaw";
    Config.projectName := "react-learning";
    Config.onBrokenLinks := "warn";
    Config.i18n := {| I18n.defaultLocale := "en"; I18n.locales := ["en"] |};
    Config.markdown := {| MarkdownConfig.mermaid := true |};
    Config.themes := ["@docusaurus/theme-live-codeblock"; "@docusaurus/theme-mermaid"];
    Config.presets :=
      [ ("classic",
         {| PresetOptions.docs :=
              {| DocsOptions.sidebarPath := "./sidebars.ts";
                 DocsOptions.editUrl := "https://github.com/bobby-openclaw/react-learning/tree/main/website/";
                 DocsOptions.routeBasePath := "/" |};
            PresetOptions.blog := IsFalse;
            PresetOptions.theme := {| ThemeOptions.customCss := "./src/css/custom.css" |} |}) ];
    Config.themeConfig :=
      {| ThemeConfig.image := "img/react-learning-social.png";
         ThemeConfig.colorMode :=
           {| ColorMode.defaultMode := "dark";
              ColorMode.respectPrefersColorScheme := true |};
         ThemeConfig.navbar :=
           {| Navbar.title := "Learn React";
              Navbar.logo := {| Logo.alt := "React Logo"; Logo.src := "img/logo.svg" |};
              Navbar.items :=
                [ {| NavbarItem.type := Some "docSidebar";
                     NavbarItem.sidebarId := Some "courseSidebar";
                     NavbarItem.href := None;
                     NavbarItem.position := "left";
                     NavbarItem.label := "Course" |};
                  {| NavbarItem.type := None;
                     NavbarItem.sidebarId := None;
                     NavbarItem.href := Some "https://github.com/bobby-openclaw/taskflow-app";
                     NavbarItem.position := "left";
                     NavbarItem.label := "TaskFlow Code" |};
                  {| NavbarItem.type := None;
                     NavbarItem.sidebarId := None;
                     NavbarItem.href := Some "https://github.com/bobby-openclaw/react-learning";
                     NavbarItem.position := "right";
                     NavbarItem.label := "GitHub" |} ] |};
         ThemeConfig.footer :=
           {| Footer.style := "dark";
              Footer.links :=
                [ {| FooterLinks.title := "Course";
                     FooterLinks.items :=
                       [ internal_link "Part 1: React Fundamentals" "/category/part-1-react-fundamentals";
                         internal_link "Part 2: Tailwind CSS" "/category/part-2-tailwind-css";
                         internal_link "Part 3: shadcn/ui" "/category/part-3-shadcnui" ] |};
                  {| FooterLinks.title := "Resources";
                     FooterLinks.items :=
                       [ external_link "TaskFlow Companion Repo" "https://github.com/bobby-openclaw/taskflow-app";
                         external_link "React Docs" "https://react.dev";
                         external_link "Tailwind Docs" "https://tailwindcss.com" ] |};
                  {| FooterLinks.title := "More";
                     FooterLinks.items :=
                       [ external_link "GitHub" "https://github.com/bobby-openclaw/react-learning" ] |} ];
              Footer.copyright := copyright |};
         ThemeConfig.prism :=
           {| Prism.theme := github;
              Prism.darkTheme := dracula;
              Prism.additionalLanguages := ["bash"; "json"; "typescript"; "tsx"] |} |}
  |}.

(** Evaluating the module in a run: the import of [themes] has been
    linked to the object the package exports. *)
Definition evaluate (env : Env) : Completion Config.t :=
  config (fullYear env) (VObject (prism_themes env)).

(** The theme that a run's [prismThemes.k] reads. *)
Definition theme_of (k : string) (env : Env) : Value :=
  default VUndefined (assoc k (prism_themes env)).

(** The links of the footer group titled [title]. *)
Definition footer_group (title : string) (cfg : Config.t) : list FooterLinkItem.t :=
  flat_map FooterLinks.items
    (filter (fun g => FooterLinks.title g = title)
       (Footer.links (ThemeConfig.footer (Config.themeConfig cfg)))).

End Docusaurus.

(** ** The shipped files *)

Module Repository.

(** What a shipped document is: markdown (with or without a front-matter
    block; [heading] is its level-one heading line) or a TypeScript module,
    for which the declared type of its default export is kept. *)
Inductive Content :=
| Markdown (frontmatter : option (list (string * string))) (heading : string)
| TsModule (default_export_type : string).

(** [origin] and [line] locate the document in the source tree; [path] is
    its path in the repository when the source tree records it. *)
Record Document := {
  origin : string;
  line : nat;
  path : option string;
  content : Content
}.

Definition chapter_frontmatter (id position title : string) : option (list (string * string)) :=
  Some [("id", id); ("sidebar_position", position); ("title", title)].

Definition named (file : string) (c : Content) : Document :=
  {| origin := file; line := 1; path := Some file; content := c |}.

Definition unnamed (file : string) (l : nat) (c : Content) : Document :=
  {| origin := file; line := l; path := None; content := c |}.

Definition intro_md : Document :=
  named "website/docs/intro.md"
    (Markdown (Some [("sidebar_position", "0"); ("title", "Welcome"); ("slug", "/")])
       "# Learn React by Building 🚀").

Definition documents : list Document :=
  [ named "README.md"
      (Markdown None "# 🚀 TaskFlow — Learn React by Building");
    named "REFERENCE.md"
      (Markdown None "# Reference Material for Chapter Authors");
    named "chapters/03-component-composition/CHAPTER.md"
      (Markdown None "# Chapter 3: Component Composition");
    unnamed "chapters/03-component-composition/CHAPTER.md" 680
      (Markdown None "# Chapter 15: Theming & Polish");
    named "chapters/05-context-global-state/CHAPTER.md"
      (Markdown None "# Chapter 5: Context & Global State");
    named "chapters/06-custom-hooks/CHAPTER.md"
      (Markdown None "# Chapter 6: Custom Hooks");
    named "chapters/07-react-router/CHAPTER.md"
      (Markdown None "# Chapter 7: React Router — Navigation & Multi-Page Apps");
    unnamed "unnamed/part_000" 1
      (Markdown (chapter_frontmatter "16-performance" "17" "Chapter 16: Performance")
         "# Chapter 16: Performance");
    unnamed "unnamed/part_001" 1
      (Markdown (chapter_frontmatter "15-theming-polish" "16" "Chapter 15: Theming & Polish")
         "# Chapter 15: Theming & Polish");
    unnamed "unnamed/part_002" 1
      (Markdown (chapter_frontmatter "17-testing" "18" "Chapter 17: Testing")
         "# Chapter 17: Testing");
    unnamed "unnamed/part_003" 1
      (Markdown (chapter_frontmatter "00-react-architecture" "1"
                   "Chapter 0: React Architecture & Mental Models")
         "# Chapter 0: React Architecture & Mental Models");
    unnamed "unnamed/part_004" 1
      (Markdown None "# Chapter 2: State & Events");
    unnamed "unnamed/part_004" 790
      (Markdown None "# Chapter 10: Advanced Tailwind CSS");
    named "website/sidebars.ts"
      (TsModule "SidebarsConfig");
    unnamed "website/sidebars.ts" 63
      (TsModule "Config");
    intro_md;
    named "website/docs/chapters/08-forms-validation.md"
      (Markdown (chapter_frontmatter "08-forms-validation" "9" "Chapter 8: Forms & Validation")
         "# Chapter 8: Forms & Validation");
    named "website/docs/chapters/09-tailwind-fundamentals.md"
      (Markdown (chapter_frontmatter "09-tailwind-fundamentals" "10"
                   "Chapter 9: Tailwind CSS Fundamentals")
         "# Chapter 9: Tailwind CSS Fundamentals");
    named "website/docs/chapters/11-shadcn-setup-core.md"
      (Markdown (chapter_frontmatter "11-shadcn-setup-core" "12"
                   "Chapter 11: shadcn/ui — Setup & Core Components")
         "# Chapter 11: shadcn/ui — Setup & Core Components");
    named "website/docs/chapters/14-shadcn-forms.md"
      (Markdown (chapter_frontmatter "14-shadcn-forms" "15" "Chapter 14: Forms the shadcn Way")
         "# Chapter 14: Forms the shadcn Way");
    unnamed "website/docs/chapters/14-shadcn-forms.md" 984
      (Markdown (chapter_frontmatter "04-side-effects-lifecycle" "5"
                   "Chapter 4: Side Effects & Lifecycle")
         "# Chapter 4: Side Effects & Lifecycle");
    unnamed "website/docs/chapters/14-shadcn-forms.md" 1928
      (Markdown (chapter_frontmatter "13-data-display" "14"
                   "Chapter 13: Data Display — Tables, Tabs, Toasts & Skeletons")
         "# Chapter 13: Data Display — Tables, Tabs, Toasts & Skeletons");
    unnamed "website/docs/chapters/14-shadcn-forms.md" 2833
      (Markdown (chapter_frontmatter "01-setup-first-component" "2"
                   "Chapter 1: Setup & Your First Component")
         "# Chapter 1: Setup & Your First Component");
    unnamed "website/docs/chapters/14-shadcn-forms.md" 3505
      (Markdown None "# Chapter 0: React Architecture & Mental Models");
    unnamed "website/docs/chapters/14-shadcn-forms.md" 3866
      (Markdown None "# Chapter 12: shadcn/ui — Complex Components") ].



End Repository.

(** ** How the site generator reads the configuration and the files

    Docusaurus itself is not part of the repository.  The definitions below
    record the part of its documented behaviour that gives the shipped
    settings their meaning: where the docs plugin looks for documents and how
    it names them, how a generated category page is routed, and what the
    [onBrokenLinks] setting does with links that do not resolve. *)

Module Site.
Import Repository.

Definition slash : Ascii.ascii := Ascii.ascii_of_nat 47.

Fixpoint split_go (sep : Ascii.ascii) (cur s : string) : list string :=
  match s with
  | "" => [String.rev cur]
  | String a rest =>
      if Ascii.eqb a sep then String.rev cur :: split_go sep "" rest
      else split_go sep (String a cur) rest
  end.

(** [s.split(sep)] for a one-character separator. *)
Definition split (sep : Ascii.ascii) (s : string) : list string := split_go sep "" s.

Fixpoint join (sep : string) (parts : list string) : string :=
  match parts with
  | [] => ""
  | [x] => x
  | x :: rest => x +:+ sep +:+ join sep rest
  end.

Definition ends_with (suffix s : string) : bool :=
  String.prefix (String.rev suffix) (String.rev s).

(** A file name without its [.md] extension; [None] for other files. *)
Definition markdown_basename (file : string) : option string :=
  if ends_with ".md" file
  then Some (String.substring 0 (String.length file - 3) file)
  else None.

Definition frontmatter (d : Document) : option (list (string * string)) :=
  match content d with
  | Markdown fm _ => fm
  | TsModule _ => None
  end.

Definition frontmatter_key (k : string) (d : Document) : option string :=
  fm ← frontmatter d; Js.assoc k fm.

Definition has_key (k : string) (d : Document) : bool :=
  bool_decide (is_Some (frontmatter_key k d)).

Definition is_markdown (d : Document) : bool :=
  match content d with Markdown _ _ => true | TsModule _ => false end.


(** The docs plugin reads [docs/] under the site directory (the preset
    options set no [path]); the site directory is [website/]. *)
Definition docs_dir : list string := ["website"; "docs"].

Definition path_in_docs_dir (p : string) : option (list string) :=
  match split slash p with
  | a :: b :: rest => if bool_decide ([a; b] = docs_dir) then Some rest else None
  | _ => None
  end.

(** The identifier of a document whose path is known: its directory under
    the docs directory, then the front-matter [id] or else the file name
    without extension. *)
Definition doc_id (d : Document) : option string :=
  p ← path d;
  rel ← path_in_docs_dir p;
  file ← last rel;
  base ← markdown_basename file;
  if is_markdown d
  then Some (join "/" (removelast rel ++ [default base (frontmatter_key "id" d)]))
  else None.

(** Whether [d] can be the document that [ident] names.  A document whose
    path is not recorded counts for every identifier that ends in its
    front-matter [id], wherever under the docs directory it may sit. *)
Definition carries (d : Document) (ident : string) : bool :=
  match path d with
  | Some _ => bool_decide (doc_id d = Some ident)
  | None => bool_decide (frontmatter_key "id" d = last (split slash ident))
            && is_markdown d
  end.

(** Markdown that the docs plugin reads: files under the docs directory,
    and front-matter documents whose path is not recorded. *)
Definition consumed (d : Document) : bool :=
  is_markdown d &&
  match path d with
  | Some p => bool_decide (is_Some (path_in_docs_dir p))
  | None => bool_decide (is_Some (frontmatter d))
  end.

(** Identifiers of a sidebar that no shipped document carries. *)
Definition unresolved_ids (ids : list string) : list string :=
  filter (fun ident => forallb (fun d => negb (carries d ident)) documents) ids.



(** *** Kinds of shipped files *)





Inductive Kind :=
| Lesson
| OtherMarkdown
| SiteConfiguration
| OtherSource.

#[global] Instance Kind_eq_dec : EqDecision Kind.
Proof. solve_decision. Defined.



(** Front-matter keys that a lesson is stated to carry. *)
Definition lesson_keys : list string := ["id"; "sidebar_position"; "title"].

Definition has_keys (ks : list string) (d : Document) : bool :=
  forallb (fun k => has_key k d) ks.

(** *** Category routes *)

(** The slug of an ASCII label: letters are lower-cased, digits, [-] and
    [_] are kept, a space becomes [-], every other character is dropped. *)
Definition slug_char (a : Ascii.ascii) : option Ascii.ascii :=
  let n := Ascii.nat_of_ascii a in
  if (65 <=? n)%nat && (n <=? 90)%nat then Some (Ascii.ascii_of_nat (n + 32))
  else if (97 <=? n)%nat && (n <=? 122)%nat then Some a
  else if (48 <=? n)%nat && (n <=? 57)%nat then Some a
  else if (n =? 45)%nat || (n =? 95)%nat then Some a
  else if (n =? 32)%nat then Some (Ascii.ascii_of_nat 45)
  else None.

Fixpoint slug (s : string) : string :=
  match s with
  | "" => ""
  | String a rest =>
      match slug_char a with
      | Some c => String c (slug rest)
      | None => slug rest
      end
  end.

(** The route of the generated index page of a category. *)
Definition category_route (label : string) : string := "/category/" +:+ slug label.

(** Footer links of the [Course] group whose label is not the label of
    any category of the sidebar. *)
Definition mismatched_course_links (cfg : Docusaurus.Config.t) : list Docusaurus.FooterLinkItem.t :=
  filter (fun l => Docusaurus.FooterLinkItem.label l ∉ Sidebars.category_labels Sidebars.courseSidebar)
    (Docusaurus.footer_group "Course" cfg).

(** *** Broken links *)

Inductive BuildOutcome :=
| BuildSucceeded (warnings : list string)
| BuildFailed (errors : list string).

Definition broken_links (routes links : list string) : list string :=
  filter (fun l => l ∉ routes) links.

(** The reporting severities of [onBrokenLinks]: ['throw'] fails the
    build, ['warn'] prints a warning for each broken link, ['log'] and
    ['ignore'] do neither. *)
Definition report (severity : string) (broken : list string) : BuildOutcome :=
  if decide (severity = "throw") then BuildFailed broken
  else if decide (severity = "warn") then BuildSucceeded broken
  else BuildSucceeded [].

(** The link check at the end of a build of a site with the given routes
    and links. *)
Definition check_links (cfg : Docusaurus.Config.t) (routes links : list string) : BuildOutcome :=
  match broken_links routes links with
  | [] => BuildSucceeded []
  | broken => report (Docusaurus.Config.onBrokenLinks cfg) broken
  end.

End Site.

(** ** The lesson code of the chapters

    The chapters build the companion application in code blocks.  The state
    logic of the chapter on state and events ([unnamed/part_004], first
    document), of the chapter on context and global state
    ([chapters/05-context-global-state/CHAPTER.md]) and of the chapter on
    advanced Tailwind ([unnamed/part_004], second document) is embedded
    here.  [crypto.randomUUID()] and [new Date()] are read from the run, and
    the browser state that the theme providers touch is passed explicitly. *)

Module Lessons.

(** [src/types.ts], from [chapters/03-component-composition/CHAPTER.md];
    a [Date] is its time value in milliseconds. *)
Module Task.
Record t := { id : string; title : string; completed : bool; createdAt : Z }.
End Task.

Inductive Filter :=
| FilterAll
| FilterActive
| FilterCompleted.

(** What a call reads from the run: the next [crypto.randomUUID()] and the
    time of [new Date()]. *)
Record Sys := { randomUUID : string; newDate : Z }.

(** The browser state that the theme providers read and write. *)
Record Browser := {
  localStorage : gmap string string;
  attributes : gmap string string;
  classList : gset string;
  prefersDark : bool
}.

Inductive Theme :=
| light
| dark.

Definition theme_name (theme : Theme) : string :=
  match theme with light => "light" | dark => "dark" end.

(** [stored === 'dark' || stored === 'light'], with the theme it names. *)
Definition stored_theme (stored : option string) : option Theme :=
  match stored with
  | Some s =>
      if String.eqb s "dark" then Some dark
      else if String.eqb s "light" then Some light
      else None
  | None => None
  end.

Definition ids (tasks : list Task.t) : list string := map Task.id tasks.

(** [{ ...t, completed: !t.completed }] *)
Definition flip_completed (t : Task.t) : Task.t :=
  {| Task.id := Task.id t; Task.title := Task.title t;
     Task.completed := negb (Task.completed t); Task.createdAt := Task.createdAt t |}.

(** *** State and events: [App] and [TagManager] *)

Module Chapter2.

(** [new Date('2026-01-15')] and the like are UTC midnights. *)
Definition INITIAL_TASKS : list Task.t :=
  [ {| Task.id := "1"; Task.title := "Learn React fundamentals";
       Task.completed := true; Task.createdAt := 1768435200000 |};
    {| Task.id := "2"; Task.title := "Build TaskFlow app";
       Task.completed := false; Task.createdAt := 1769904000000 |};
    {| Task.id := "3"; Task.title := "Master TypeScript";
       Task.completed := false; Task.createdAt := 1770076800000 |} ].

(** The derived values of [App]. *)
Definition filteredTasks (tasks : list Task.t) (filter : Filter) : list Task.t :=
  match filter with
  | FilterAll => tasks
  | _ =>
      List.filter
        (fun t => match filter with
                  | FilterCompleted => Task.completed t
                  | _ => negb (Task.completed t)
                  end)
        tasks
  end.

Definition activeCount (tasks : list Task.t) : nat :=
  length (List.filter (fun t => negb (Task.completed t)) tasks).

(** The handlers of [App], as the updates they pass to [setTasks]. *)
Definition addTask (sys : Sys) (title : string) (prev : list Task.t) : list Task.t :=
  let newTask :=
    {| Task.id := randomUUID sys; Task.title := title;
       Task.completed := false; Task.createdAt := newDate sys |} in
  newTask :: prev.

Definition toggleTask (id : string) (prev : list Task.t) : list Task.t :=
  map (fun task => if String.eqb (Task.id task) id then flip_completed task else task) prev.

Definition deleteTask (id : string) (prev : list Task.t) : list Task.t :=
  List.filter (fun task => negb (String.eqb (Task.id task) id)) prev.

(** The state of [TagManager]. *)
Module TagManager.
Record t := { tags : list string; input : string }.
End TagManager.

(** [tags.includes(trimmed)] *)
Definition includes (tags : list string) (tag : string) : bool :=
  existsb (String.eqb tag) tags.

(** [addTag] as created by the render whose state is [render], applied to
    the state [prev] that its updates reach: [input] and the [tags] of the
    [includes] test are the render's, the tag is appended to the updater's
    [prev].  [normalize] stands for [s => s.trim().toLowerCase()]; an empty
    string is falsy. *)
Definition addTag (normalize : string -> string) (render prev : TagManager.t) : TagManager.t :=
  let trimmed := normalize (TagManager.input render) in
  if negb (String.eqb trimmed "") && negb (includes (TagManager.tags render) trimmed)
  then {| TagManager.tags := TagManager.tags prev ++ [trimmed]; TagManager.input := "" |}
  else prev.

Definition removeTag (tag : string) (st : TagManager.t) : TagManager.t :=
  {| TagManager.tags := List.filter (fun t => negb (String.eqb t tag)) (TagManager.tags st);
     TagManager.input := TagManager.input st |}.

End Chapter2.

(** *** Context and global state: reducers and [ThemeProvider] *)

Module Chapter5.

Module TaskState.
Record t := { tasks : list Task.t; filter : Filter }.
End TaskState.

(** The actions of the [TaskAction] union; the [default] branch of the
    reducers is not reachable for an action of this type. *)
Inductive TaskAction :=
| ADD_TASK (title : string)
| TOGGLE_TASK (id : string)
| DELETE_TASK (id : string)
| SET_FILTER (filter : Filter)
| LOAD_TASKS (tasks : list Task.t).

Definition new_task (sys : Sys) (title : string) : Task.t :=
  {| Task.id := randomUUID sys; Task.title := title;
     Task.completed := false; Task.createdAt := newDate sys |}.

(** The reducer of the concepts section: [LOAD_TASKS] prepends the payload
    as it is. *)
Module Concepts.
Definition taskReducer (sys : Sys) (state : TaskState.t) (action : TaskAction) : TaskState.t :=
  match action with
  | ADD_TASK title =>
      {| TaskState.tasks := new_task sys title :: TaskState.tasks state;
         TaskState.filter := TaskState.filter state |}
  | TOGGLE_TASK id =>
      {| TaskState.tasks :=
           map (fun t => if String.eqb (Task.id t) id then flip_completed t else t)
             (TaskState.tasks state);
         TaskState.filter := TaskState.filter state |}
  | DELETE_TASK id =>
      {| TaskState.tasks :=
           List.filter (fun t => negb (String.eqb (Task.id t) id)) (TaskState.tasks state);
         TaskState.filter := TaskState.filter state |}
  | SET_FILTER filter =>
      {| TaskState.tasks := TaskState.tasks state; TaskState.filter := filter |}
  | LOAD_TASKS tasks =>
      {| TaskState.tasks := tasks ++ TaskState.tasks state;
         TaskState.filter := TaskState.filter state |}
  end.
End Concepts.

(** The reducer of [src/context/TaskContext.tsx]: [LOAD_TASKS] drops the
    payload tasks whose id the state already has. *)
Definition taskReducer (sys : Sys) (state : TaskState.t) (action : TaskAction) : TaskState.t :=
  match action with
  | ADD_TASK title =>
      {| TaskState.tasks := new_task sys title :: TaskState.tasks state;
         TaskState.filter := TaskState.filter state |}
  | TOGGLE_TASK id =>
      {| TaskState.tasks :=
           map (fun t => if String.eqb (Task.id t) id then flip_completed t else t)
             (TaskState.tasks state);
         TaskState.filter := TaskState.filter state |}
  | DELETE_TASK id =>
      {| TaskState.tasks :=
           List.filter (fun t => negb (String.eqb (Task.id t) id)) (TaskState.tasks state);
         TaskState.filter := TaskState.filter state |}
  | SET_FILTER filter =>
      {| TaskState.tasks := TaskState.tasks state; TaskState.filter := filter |}
  | LOAD_TASKS tasks =>
      let existingIds : gset string := list_to_set (ids (TaskState.tasks state)) in
      let newTasks := List.filter (fun t => negb (bool_decide (Task.id t ∈ existingIds))) tasks in
      {| TaskState.tasks := newTasks ++ TaskState.tasks state;
         TaskState.filter := TaskState.filter state |}
  end.

(** What keeps ids unique under an action: a fresh id from the run for
    [ADD_TASK], a payload without repeated ids for [LOAD_TASKS]. *)
Definition admissible (sys : Sys) (state : TaskState.t) (action : TaskAction) : Prop :=
  match action with
  | ADD_TASK _ => randomUUID sys ∉ ids (TaskState.tasks state)
  | LOAD_TASKS tasks => NoDup (ids tasks)
  | _ => True
  end.

(** The derived values of [TaskProvider]. *)
Definition filteredTasks (state : TaskState.t) : list Task.t :=
  match TaskState.filter state with
  | FilterAll => TaskState.tasks state
  | _ =>
      List.filter
        (fun t => match TaskState.filter state with
                  | FilterCompleted => Task.completed t
                  | _ => negb (Task.completed t)
                  end)
        (TaskState.tasks state)
  end.

Definition activeCount (state : TaskState.t) : nat :=
  length (List.filter (fun t => negb (Task.completed t)) (TaskState.tasks state)).

(** The notification example. *)
Module Notification.
Record t := { id : string; message : string; type : string }.
End Notification.

Inductive NotifAction :=
| ADD (payload : Notification.t)
| DISMISS (id : string)
| CLEAR_ALL.

Definition notifReducer (state : list Notification.t) (action : NotifAction) : list Notification.t :=
  match action with
  | ADD payload => state ++ [payload]
  | DISMISS id => List.filter (fun n => negb (String.eqb (Notification.id n) id)) state
  | CLEAR_ALL => []
  end.

(** [ThemeProvider]: the initial state, [toggleTheme] and the effect that
    syncs the theme to the document and to [localStorage]. *)
Definition initialTheme (b : Browser) : Theme :=
  default light (stored_theme (localStorage b !! "taskflow-theme")).

Definition toggleTheme (prev : Theme) : Theme :=
  match prev with light => dark | dark => light end.

Definition syncTheme (theme : Theme) (b : Browser) : Browser :=
  {| localStorage := <["taskflow-theme" := theme_name theme]> (localStorage b);
     attributes := <["data-theme" := theme_name theme]> (attributes b);
     classList := classList b;
     prefersDark := prefersDark b |}.

End Chapter5.

(** *** Advanced Tailwind: the [ThemeProvider] with the [dark] class *)

Module Chapter10.

Definition initialTheme (b : Browser) : Theme :=
  match stored_theme (localStorage b !! "taskflow-theme") with
  | Some stored => stored
  | None => if prefersDark b then dark else light
  end.

Definition toggleTheme (prev : Theme) : Theme :=
  match prev with light => dark | dark => light end.

Definition syncTheme (theme : Theme) (b : Browser) : Browser :=
  {| localStorage := <["taskflow-theme" := theme_name theme]> (localStorage b);
     attributes := attributes b;
     classList := match theme with
                  | dark => {["dark"]} ∪ classList b
                  | light => classList b ∖ {["dark"]}
                  end;
     prefersDark := prefersDark b |}.

End Chapter10.

End Lessons.

(** ** Sample lesson states used in the statements below *)

Module LessonSamples.
Import Lessons.

Definition sys0 : Sys := {| randomUUID := "4"; newDate := 1770163200000 |}.

(** The state of [App] on its first render. *)
Definition state0 : Chapter5.TaskState.t :=
  {| Chapter5.TaskState.tasks := Chapter2.INITIAL_TASKS;
     Chapter5.TaskState.filter := FilterAll |}.

Definition task2 : Task.t :=
  {| Task.id := "2"; Task.title := "Build TaskFlow app";
     Task.completed := false; Task.createdAt := 1769904000000 |}.

Definition task4 : Task.t :=
  {| Task.id := "4"; Task.title := "Ship it";
     Task.completed := false; Task.createdAt := 1770163200000 |}.

Definition saved : Chapter5.Notification.t :=
  {| Chapter5.Notification.id := "n1"; Chapter5.Notification.message := "Saved";
     Chapter5.Notification.type := "success" |}.

(** [TagManager] on its first render, with [hooks] typed into the input. *)
Definition tags0 : Chapter2.TagManager.t :=
  {| Chapter2.TagManager.tags := ["react"; "typescript"];
     Chapter2.TagManager.input := "hooks" |}.

Definition as_typed (s : string) : string := s.

Definition failed : Chapter5.Notification.t :=
  {| Chapter5.Notification.id := "n2"; Chapter5.Notification.message := "Failed";
     Chapter5.Notification.type := "error" |}.

(** A first visit from a system that prefers dark: nothing is stored. *)
Definition first_visit_dark : Browser :=
  {| localStorage := ∅; attributes := ∅; classList := ∅; prefersDark := true |}.

End LessonSamples.

(** ** Sample runs and observations used in the statements below *)

Module Samples.
Import Js.

Definition run_2025 : Env := {| fullYear := 2025; prism_themes := [] |}.
Definition run_2026 : Env := {| fullYear := 2026; prism_themes := [] |}.

Definition run_2026_more_themes : Env :=
  {| fullYear := 2026; prism_themes := [("nightOwl", VObject [])] |}.

(** A site with two pages, one of which links to a footer route. *)
Definition two_routes : list string := ["/"; "/chapters/08-forms-validation"].
Definition two_links : list string := ["/"; "/category/part-2-tailwind-css"].

(** The three values of the site configuration that are read from the run. *)
Definition run_dependent (r : Completion Docusaurus.Config.t) : option (string * Value * Value) :=
  match r with
  | Normal cfg =>
      let tc := Docusaurus.Config.themeConfig cfg in
      Some (Docusaurus.Footer.copyright (Docusaurus.ThemeConfig.footer tc),
            Docusaurus.Prism.theme (Docusaurus.ThemeConfig.prism tc),
            Docusaurus.Prism.darkTheme (Docusaurus.ThemeConfig.prism tc))
  | Throw _ => None
  end.

End Samples.

(** * Properties *)

Import Js Samples.

(** Closed decidable facts about the shipped data are settled by running
    their decision procedure. *)
Ltac by_computation := apply (bool_decide_unpack _); vm_compute; exact I.

(** ** Evaluation of the modules *)

Lemma get_member_object props k :
  get_member (VObject props) k = Normal (default VUndefined (assoc k props)).
Proof. reflexivity. Qed.

(** Member access is the only place where the site configuration can throw,
    and it does so exactly on [undefined] and [null]. *)
Lemma get_member_throws v k :
  is_normal (get_member v k) = false <-> v = VUndefined \/ v = VNull.
Proof.
  destruct v; simpl; split; intros H; try discriminate; auto;
    destruct H as [H|H]; discriminate.
Qed.

Lemma config_throws year v :
  is_normal (Docusaurus.config year v) = false <-> v = VUndefined \/ v = VNull.
Proof.
  rewrite <- (get_member_throws v "github").
  unfold Docusaurus.config.
  destruct v; simpl; split; intros H; try discriminate; reflexivity.
Qed.


Lemma evaluate_is_normal env : is_normal (Docusaurus.evaluate env) = true.
Proof.
  destruct (is_normal (Docusaurus.evaluate env)) eqn:E; [reflexivity|].
  apply config_throws in E. destruct E; discriminate.
Qed.

Lemma run_2026_evaluates : exists cfg, Docusaurus.evaluate run_2026 = Normal cfg.
Proof. eexists. reflexivity. Qed.

Lemma is_normal_value {A} (m : Completion A) :
  is_normal m = true -> exists a, m = Normal a.
Proof. destruct m; [eauto | discriminate]. Qed.

Lemma run_dependent_evaluate env :
  run_dependent (Docusaurus.evaluate env) =
  Some (Docusaurus.copyright_text (fullYear env),
        Docusaurus.theme_of "github" env, Docusaurus.theme_of "dracula" env).
Proof. destruct env as [y th]. reflexivity. Qed.

(** When the import is linked to an object, as in every [Env], both modules
    evaluate to a value. *)
Lemma linked_modules_evaluate :
  forall env : Env,
    Sidebars.evaluate env = Normal Sidebars.sidebars /\
    (exists cfg, Docusaurus.evaluate env = Normal cfg).
Proof.
  intros env. split; [reflexivity|].
  apply is_normal_value, evaluate_is_normal.
Qed.






(** ** Dependence on the run *)

Lemma append_cons a s t : String a s +:+ t = String a (s +:+ t).
Proof. reflexivity. Qed.

Lemma length_append s t :
  String.length (s +:+ t) = String.length s + String.length t.
Proof.
  induction s as [|a s IH]; [reflexivity|].
  rewrite append_cons. simpl. by rewrite IH.
Qed.

Lemma append_inj_r t s1 s2 : s1 +:+ t = s2 +:+ t -> s1 = s2.
Proof.
  revert s2. induction s1 as [|a s1 IH]; intros [|b s2] H.
  - reflexivity.
  - apply (f_equal String.length) in H.
    rewrite !length_append in H. simpl in H. lia.
  - apply (f_equal String.length) in H.
    rewrite !length_append in H. simpl in H. lia.
  - rewrite !append_cons in H. injection H as -> H. f_equal. by apply IH.
Qed.

(** Different years give different copyright lines. *)
Lemma copyright_text_inj y1 y2 :
  Docusaurus.copyright_text y1 = Docusaurus.copyright_text y2 -> y1 = y2.
Proof.
  unfold Docusaurus.copyright_text, number_to_string. intros H.
  apply (inj (String.append _)) in H.
  apply append_inj_r in H.
  by apply (inj pretty) in H.
Qed.

(** Runs that agree on the year and on the two themes give the same value. *)
Lemma evaluate_ext e1 e2 :
  fullYear e1 = fullYear e2 ->
  Docusaurus.theme_of "github" e1 = Docusaurus.theme_of "github" e2 ->
  Docusaurus.theme_of "dracula" e1 = Docusaurus.theme_of "dracula" e2 ->
  Docusaurus.evaluate e1 = Docusaurus.evaluate e2.
Proof.
  destruct e1 as [y1 th1], e2 as [y2 th2].
  unfold Docusaurus.theme_of. simpl. intros -> Hg Hd.
  unfold Docusaurus.evaluate, Docusaurus.config. simpl.
  rewrite Hg, Hd. reflexivity.
Qed.

(** C4, as stated, fails: evaluated in 2025 and in 2026 the site
    configuration differs (in [footer.copyright]). *)
Lemma config_depends_on_clock :
  ~ (forall e1 e2 : Env,
       Sidebars.evaluate e1 = Sidebars.evaluate e2 /\
       Docusaurus.evaluate e1 = Docusaurus.evaluate e2).
Proof.
  intros H. destruct (H run_2025 run_2026) as [_ E].
  apply (f_equal run_dependent) in E.
  rewrite !run_dependent_evaluate in E.
  assert (Ey : fullYear run_2025 = fullYear run_2026)
    by (apply copyright_text_inj; congruence).
  discriminate Ey.
Qed.

(** C4, amended.  The sidebar module evaluates to the same value in every
    run.  The site configuration evaluates to the same value in two runs
    exactly when the runs agree on the calendar year of the clock and on the
    [github] and [dracula] themes of the installed package. *)
Theorem config_equal_iff_same_year_and_themes :
  forall e1 e2 : Env,
    Sidebars.evaluate e1 = Sidebars.evaluate e2 /\
    (Docusaurus.evaluate e1 = Docusaurus.evaluate e2 <->
       fullYear e1 = fullYear e2 /\
       Docusaurus.theme_of "github" e1 = Docusaurus.theme_of "github" e2 /\
       Docusaurus.theme_of "dracula" e1 = Docusaurus.theme_of "dracula" e2).
Proof.
  intros e1 e2. split; [reflexivity|]. split.
  - intros E. apply (f_equal run_dependent) in E.
    rewrite !run_dependent_evaluate in E.
    split; [apply copyright_text_inj; congruence|].
    split; congruence.
  - intros (Hy & Hg & Hd). by apply evaluate_ext.
Qed.

Lemma config_equal_iff_same_year_and_themes_witness :
  Docusaurus.evaluate run_2026 = Docusaurus.evaluate run_2026_more_themes.
Proof.
  apply (config_equal_iff_same_year_and_themes run_2026 run_2026_more_themes).
  repeat split; reflexivity.
Defined.

(** ** The navigation tree *)

Import Sidebars.

(** C5.  The sidebar module exports one sidebar, [courseSidebar]: the
    identifier [intro] followed by five categories, each holding only
    document identifiers (no nested category), whose identifiers are the
    chapters 00 to 17 in ascending order. *)
Theorem course_sidebar_shape :
  sidebars = [("courseSidebar", courseSidebar)] /\
  exists categories,
    courseSidebar = Doc "intro" :: categories /\
    length categories = 5 /\
    forallb is_flat_category categories = true /\
    map chapter_number (doc_ids categories) = map Some (seq 0 18).
Proof.
  split; [reflexivity|].
  eexists. split; [reflexivity|].
  repeat split; reflexivity.
Qed.

Lemma filter_eq_absent (l : list string) (x : string) :
  x ∉ l -> filter (fun y => y = x) l = [].
Proof.
  induction l as [|y l IH]; intros Hx; [reflexivity|].
  apply not_elem_of_cons in Hx as [Hne Hx].
  rewrite filter_cons_False by congruence. by apply IH.
Qed.

Lemma exactly_once_of_NoDup (l : list string) (x : string) :
  NoDup l -> x ∈ l -> length (filter (fun y => y = x) l) = 1.
Proof.
  induction 1 as [|y l Hy Hl IH]; intros Hx.
  - by apply not_elem_of_nil in Hx.
  - apply elem_of_cons in Hx as [->|Hx].
    + rewrite filter_cons_True by reflexivity.
      by rewrite filter_eq_absent.
    + rewrite filter_cons_False by (intros ->; contradiction).
      by apply IH.
Qed.

(** C10.  Every document identifier of [courseSidebar] occurs exactly once
    in the whole tree, top level and categories taken together. *)
Theorem sidebar_doc_ids_unique :
  NoDup (doc_ids courseSidebar) /\
  Forall (fun ident => length (filter (fun y => y = ident) (doc_ids courseSidebar)) = 1)
    (doc_ids courseSidebar).
Proof.
  assert (Hnd : NoDup (doc_ids courseSidebar)) by by_computation.
  split; [exact Hnd|].
  apply Forall_forall. intros ident Hin. by apply exactly_once_of_NoDup.
Qed.

(** ** The configuration surface *)

(** C6.  In every run the site configuration has the stated title, url and
    baseUrl, a navbar with three entries, a footer with three link groups,
    the Prism languages bash, json, typescript and tsx, and a colour mode
    that defaults to dark and respects the reader's preference. *)
Theorem config_surface :
  forall env : Env, exists cfg,
    Docusaurus.evaluate env = Normal cfg /\
    Docusaurus.Config.title cfg = "Learn React by Building" /\
    Docusaurus.Config.url cfg = "https://bobby-openclaw.github.io" /\
    Docusaurus.Config.baseUrl cfg = "/react-learning/" /\
    (let tc := Docusaurus.Config.themeConfig cfg in
     map Docusaurus.NavbarItem.label (Docusaurus.Navbar.items (Docusaurus.ThemeConfig.navbar tc))
       = ["Course"; "TaskFlow Code"; "GitHub"] /\
     length (Docusaurus.Navbar.items (Docusaurus.ThemeConfig.navbar tc)) = 3 /\
     map Docusaurus.FooterLinks.title (Docusaurus.Footer.links (Docusaurus.ThemeConfig.footer tc))
       = ["Course"; "Resources"; "More"] /\
     length (Docusaurus.Footer.links (Docusaurus.ThemeConfig.footer tc)) = 3 /\
     Docusaurus.Prism.additionalLanguages (Docusaurus.ThemeConfig.prism tc)
       = ["bash"; "json"; "typescript"; "tsx"] /\
     Docusaurus.ColorMode.defaultMode (Docusaurus.ThemeConfig.colorMode tc) = "dark" /\
     Docusaurus.ColorMode.respectPrefersColorScheme (Docusaurus.ThemeConfig.colorMode tc) = true).
Proof.
  intros [year themes]. eexists. split; [reflexivity|].
  repeat split; reflexivity.
Qed.

(** The footer routes of the [Course] group are the category routes of the
    labels they carry. *)
Lemma footer_course_routes_follow_labels :
  forall env : Env, exists cfg,
    Docusaurus.evaluate env = Normal cfg /\
    Forall (fun l => Docusaurus.FooterLinkItem.to l
                     = Some (Site.category_route (Docusaurus.FooterLinkItem.label l)))
      (Docusaurus.footer_group "Course" cfg).
Proof.
  intros [year themes]. eexists. split; [reflexivity|].
  repeat constructor.
Qed.

(** C9.  Two footer links of the [Course] group, labelled
    [Part 2: Tailwind CSS] and [Part 3: shadcn/ui], carry a label that no
    category of [courseSidebar] has (the categories are labelled
    [Part 2: Routing & Forms], [Part 3: Tailwind CSS], [Part 4: shadcn/ui],
    ...), and the routes they target are the route of no category. *)
Theorem footer_course_labels_mismatch :
  forall env : Env, exists cfg,
    Docusaurus.evaluate env = Normal cfg /\
    category_labels courseSidebar
      = ["Part 1: React Fundamentals"; "Part 2: Routing & Forms"; "Part 3: Tailwind CSS";
         "Part 4: shadcn/ui"; "Part 5: Production"] /\
    map Docusaurus.FooterLinkItem.label (Site.mismatched_course_links cfg)
      = ["Part 2: Tailwind CSS"; "Part 3: shadcn/ui"] /\
    (exists l, l ∈ Docusaurus.footer_group "Course" cfg /\
               Docusaurus.FooterLinkItem.label l ∉ category_labels courseSidebar) /\
    Forall (fun l => exists route,
                Docusaurus.FooterLinkItem.to l = Some route /\
                route ∉ map Site.category_route (category_labels courseSidebar))
      (Site.mismatched_course_links cfg).
Proof.
  intros [year themes]. eexists. split; [reflexivity|].
  split; [reflexivity|].
  split; [reflexivity|].
  split.
  - exists (Docusaurus.internal_link "Part 2: Tailwind CSS" "/category/part-2-tailwind-css").
    split.
    + apply (list_elem_of_lookup_2 _ 1). reflexivity.
    + by_computation.
  - repeat constructor; eexists; (split; [reflexivity|]); by_computation.
Qed.

(** ** Broken links *)

Import Site.

Lemma evaluate_onBrokenLinks env cfg :
  Docusaurus.evaluate env = Normal cfg -> Docusaurus.Config.onBrokenLinks cfg = "warn".
Proof. destruct env as [year themes]. intros H. injection H as <-. reflexivity. Qed.

Lemma report_warn broken : report "warn" broken = BuildSucceeded broken.
Proof. reflexivity. Qed.

Lemma report_throw broken : report "throw" broken = BuildFailed broken.
Proof. reflexivity. Qed.

(** The link check fails a build only under the ['throw'] severity. *)
Lemma check_links_fails_iff cfg routes links errors :
  check_links cfg routes links = BuildFailed errors <->
  Docusaurus.Config.onBrokenLinks cfg = "throw" /\
  errors = broken_links routes links /\ errors <> [].
Proof.
  unfold check_links, report.
  destruct (broken_links routes links) as [|l broken] eqn:E.
  - split; [discriminate | intros (_ & -> & H); contradiction].
  - destruct (decide (Docusaurus.Config.onBrokenLinks cfg = "throw")) as [Ht|Ht].
    + split; [intros [= <-]; done | intros (_ & -> & _); done].
    + split; [|intros (Ht' & _); contradiction].
      destruct (decide (Docusaurus.Config.onBrokenLinks cfg = "warn")); discriminate.
Qed.

(** C7, as stated, fails: with the shipped configuration a site whose link
    to [/category/part-2-tailwind-css] does not resolve still builds. *)
Lemma broken_link_does_not_fail_build :
  ~ (forall (env : Env) cfg routes links,
       Docusaurus.evaluate env = Normal cfg ->
       broken_links routes links <> [] ->
       exists errors, check_links cfg routes links = BuildFailed errors).
Proof.
  intros H.
  destruct (run_2026_evaluates) as [cfg Hcfg].
  destruct (H run_2026 cfg two_routes two_links Hcfg) as [errors E].
  - vm_compute. discriminate.
  - unfold check_links in E. rewrite (evaluate_onBrokenLinks _ _ Hcfg) in E.
    vm_compute in E. discriminate.
Qed.

(** C7, amended.  The shipped configuration sets [onBrokenLinks] to
    ['warn']: the link check never fails the build, it reports every link
    that does not resolve as a warning. *)
Theorem broken_links_only_warn :
  forall (env : Env) cfg routes links,
    Docusaurus.evaluate env = Normal cfg ->
    check_links cfg routes links = BuildSucceeded (broken_links routes links).
Proof.
  intros env cfg routes links Hcfg. unfold check_links.
  rewrite (evaluate_onBrokenLinks _ _ Hcfg).
  destruct (broken_links routes links); [reflexivity | apply report_warn].
Qed.

Lemma broken_links_only_warn_witness :
  exists cfg,
    Docusaurus.evaluate run_2026 = Normal cfg /\
    check_links cfg two_routes two_links = BuildSucceeded ["/category/part-2-tailwind-css"].
Proof.
  eexists. split; [reflexivity|].
  apply (broken_links_only_warn run_2026 _ two_routes two_links). reflexivity.
Defined.

(** ** The shipped files *)

Import Repository.

(** A check that holds of the whole inventory holds of each document. *)
Lemma documents_forallb (check : Document -> bool) :
  forallb check documents = true ->
  forall d, d ∈ documents -> check d = true.
Proof.
  intros H d Hd. apply list_elem_of_In in Hd.
  revert d Hd. by apply forallb_forall.
Qed.

Lemma intro_md_shipped : intro_md ∈ documents.
Proof. apply (list_elem_of_lookup_2 _ 15). reflexivity. Qed.






(** The companion application that the navbar links to as [TaskFlow Code]
    lives in another repository than this site's own. *)
Lemma taskflow_code_is_external :
  forall env : Env, exists cfg item,
    Docusaurus.evaluate env = Normal cfg /\
    item ∈ Docusaurus.Navbar.items (Docusaurus.ThemeConfig.navbar (Docusaurus.Config.themeConfig cfg)) /\
    Docusaurus.NavbarItem.label item = "TaskFlow Code" /\
    Docusaurus.NavbarItem.href item = Some "https://github.com/bobby-openclaw/taskflow-app" /\
    Docusaurus.NavbarItem.href item <>
      Some ("https://github.com/" +:+ Docusaurus.Config.organizationName cfg
            +:+ "/" +:+ Docusaurus.Config.projectName cfg).
Proof.
  intros [year themes]. do 2 eexists. split; [reflexivity|].
  split; [apply (list_elem_of_lookup_2 _ 1); reflexivity|].
  repeat split. vm_compute. discriminate.
Qed.

(** C3, as stated, fails: [website/docs/intro.md] is read by the docs
    plugin and its front-matter has no [id]. *)
Lemma intro_md_has_no_id :
  ~ (forall d, d ∈ documents -> consumed d = true -> has_keys lesson_keys d = true).
Proof.
  intros H. specialize (H intro_md intro_md_shipped eq_refl). discriminate H.
Qed.

(** C3, amended.  Every markdown file read by the docs plugin carries
    front-matter with [sidebar_position] and [title], and every one other
    than [website/docs/intro.md] also carries [id]. *)
Theorem consumed_lessons_front_matter :
  forall d, d ∈ documents -> consumed d = true ->
    has_keys ["sidebar_position"; "title"] d = true /\
    (path d <> Some "website/docs/intro.md" -> has_key "id" d = true).
Proof.
  intros d Hd Hc.
  pose proof (documents_forallb
    (fun d => implb (consumed d)
                (has_keys ["sidebar_position"; "title"] d &&
                 (bool_decide (path d = Some "website/docs/intro.md") || has_key "id" d)))
    eq_refl d Hd) as H.
  cbv beta in H. rewrite Hc in H. simpl in H.
  apply andb_prop in H as [H1 H2]. split; [exact H1|].
  intros Hp. apply orb_prop in H2 as [H2|H2]; [|exact H2].
  apply bool_decide_eq_true in H2. contradiction.
Qed.

Lemma consumed_lessons_front_matter_witness :
  intro_md ∈ documents /\ consumed intro_md = true /\
  has_keys ["sidebar_position"; "title"] intro_md = true /\
  (path intro_md <> Some "website/docs/intro.md" -> has_key "id" intro_md = true).
Proof.
  split; [apply (list_elem_of_lookup_2 _ 15); reflexivity|]. split; [reflexivity|].
  apply (consumed_lessons_front_matter intro_md);
    [apply (list_elem_of_lookup_2 _ 15); reflexivity | reflexivity].
Defined.

(** The chapter sources kept as [CHAPTER.md] carry no front-matter. *)
Lemma chapter_sources_have_no_front_matter :
  forall d p, d ∈ documents -> path d = Some p -> ends_with "/CHAPTER.md" p = true ->
    frontmatter d = None.
Proof.
  intros d p Hd Hp He.
  pose proof (documents_forallb
    (fun d => match path d with
              | Some p => implb (ends_with "/CHAPTER.md" p) (bool_decide (frontmatter d = None))
              | None => true
              end) eq_refl d Hd) as H.
  cbv beta in H. rewrite Hp, He in H. by apply bool_decide_eq_true in H.
Qed.

(** ** Closure of the navigation tree over the documents *)

(** The landing page carries the identifier [intro], from its file name. *)
Lemma intro_md_resolves :
  doc_id intro_md = Some "intro" /\ "intro" ∈ doc_ids courseSidebar.
Proof. split; [reflexivity | by_computation]. Qed.

Lemma unresolved_ids_course_sidebar :
  unresolved_ids (doc_ids courseSidebar) =
  [ "chapters/02-state-and-events"; "chapters/03-component-composition";
    "chapters/05-context-global-state"; "chapters/06-custom-hooks";
    "chapters/07-react-router"; "chapters/10-advanced-tailwind";
    "chapters/12-shadcn-complex-components" ].
Proof. vm_compute. reflexivity. Qed.

Lemma unresolved_ids_spec ids ident :
  ident ∈ unresolved_ids ids <->
  ident ∈ ids /\ forall d, d ∈ documents -> carries d ident = false.
Proof.
  unfold unresolved_ids. rewrite list_elem_of_filter.
  rewrite Is_true_true, forallb_forall. split; intros [H1 H2]; split; try done.
  - intros d Hd. apply list_elem_of_In in Hd. apply H1 in Hd.
    by apply negb_true_iff in Hd.
  - intros d Hd. apply list_elem_of_In in Hd. apply negb_true_iff. auto.
Qed.

(** C8.  [courseSidebar] lists identifiers that no shipped markdown
    document carries, among them [chapters/10-advanced-tailwind] and
    [chapters/12-shadcn-complex-components]: the tree is not closed over the
    shipped documents. *)
Theorem sidebar_not_closed_over_documents :
  Forall (fun ident => ident ∈ doc_ids courseSidebar /\
                       forall d, d ∈ documents -> carries d ident = false)
    ["chapters/10-advanced-tailwind"; "chapters/12-shadcn-complex-components"] /\
  ~ (forall ident, ident ∈ doc_ids courseSidebar ->
       exists d, d ∈ documents /\ carries d ident = true).
Proof.
  assert (H10 : "chapters/10-advanced-tailwind" ∈ unresolved_ids (doc_ids courseSidebar)).
  { rewrite unresolved_ids_course_sidebar. apply (list_elem_of_lookup_2 _ 5). reflexivity. }
  assert (H12 : "chapters/12-shadcn-complex-components" ∈ unresolved_ids (doc_ids courseSidebar)).
  { rewrite unresolved_ids_course_sidebar. apply (list_elem_of_lookup_2 _ 6). reflexivity. }
  apply unresolved_ids_spec in H10, H12. split.
  - repeat constructor; tauto.
  - intros Hclosed. destruct H10 as [Hin Hnone].
    destruct (Hclosed _ Hin) as (d & Hd & Hcarries).
    rewrite (Hnone d Hd) in Hcarries. discriminate.
Qed.

(** The chapters 1, 4 and 13 are shipped as front-matter documents whose
    path is not recorded; they carry the identifiers the sidebar lists. *)
Lemma bundled_chapters_resolve :
  Forall (fun ident => exists d, d ∈ documents /\ path d = None /\ carries d ident = true)
    ["chapters/01-setup-first-component"; "chapters/04-side-effects-lifecycle";
     "chapters/13-data-display"].
Proof.
  repeat constructor.
  - eexists. split; [apply (list_elem_of_lookup_2 _ 22); reflexivity|]. by vm_compute.
  - eexists. split; [apply (list_elem_of_lookup_2 _ 20); reflexivity|]. by vm_compute.
  - eexists. split; [apply (list_elem_of_lookup_2 _ 21); reflexivity|]. by vm_compute.
Qed.

(** ** The lesson code *)

Import Lessons.

Lemma flip_completed_twice t : flip_completed (flip_completed t) = t.
Proof. destruct t as [i ti c d]. unfold flip_completed. simpl. by rewrite negb_involutive. Qed.

Lemma toggle_map_twice id (l : list Task.t) :
  map (fun t => if String.eqb (Task.id t) id then flip_completed t else t)
    (map (fun t => if String.eqb (Task.id t) id then flip_completed t else t) l) = l.
Proof.
  induction l as [|t l IH]; [reflexivity|]. simpl. rewrite IH. f_equal.
  destruct (String.eqb (Task.id t) id) eqn:E; simpl; rewrite E; [apply flip_completed_twice | reflexivity].
Qed.

Lemma toggle_map_ids id (l : list Task.t) :
  ids (map (fun t => if String.eqb (Task.id t) id then flip_completed t else t) l) = ids l.
Proof.
  unfold ids. rewrite map_map. apply map_ext. intros t.
  by destruct (String.eqb (Task.id t) id).
Qed.

Lemma toggle_map_absent id (l : list Task.t) :
  id ∉ ids l ->
  map (fun t => if String.eqb (Task.id t) id then flip_completed t else t) l = l.
Proof.
  induction l as [|t l IH]; intros H; [reflexivity|].
  unfold ids in H. simpl in H. apply not_elem_of_cons in H as [Hne H].
  simpl. rewrite IH by exact H. f_equal.
  destruct (String.eqb (Task.id t) id) eqn:E; [|reflexivity].
  apply String.eqb_eq in E. congruence.
Qed.

Lemma filter_all_true {A} (p : A -> bool) (l : list A) :
  (forall x, In x l -> p x = true) -> List.filter p l = l.
Proof.
  induction l as [|x l IH]; intros H; [reflexivity|]. simpl.
  rewrite (H x) by (by left). f_equal. apply IH. intros y Hy. apply H. by right.
Qed.

Lemma filter_all_false {A} (p : A -> bool) (l : list A) :
  (forall x, In x l -> p x = false) -> List.filter p l = [].
Proof.
  induction l as [|x l IH]; intros H; [reflexivity|]. simpl.
  rewrite (H x) by (by left). apply IH. intros y Hy. apply H. by right.
Qed.

Lemma delete_filter_absent id (l : list Task.t) :
  id ∉ ids l ->
  List.filter (fun t => negb (String.eqb (Task.id t) id)) l = l.
Proof.
  intros H. apply filter_all_true. intros t Ht.
  apply negb_true_iff, String.eqb_neq. intros <-.
  apply H, list_elem_of_In, in_map, Ht.
Qed.

Lemma NoDup_ids_filter (p : Task.t -> bool) (l : list Task.t) :
  NoDup (ids l) -> NoDup (ids (List.filter p l)).
Proof.
  induction l as [|t l IH]; intros H; [constructor|].
  unfold ids in *. simpl in *. apply NoDup_cons in H as [Hnotin H].
  destruct (p t); simpl; [|by apply IH].
  apply NoDup_cons. split; [|by apply IH].
  intros Hin. apply Hnotin.
  apply list_elem_of_In, in_map_iff in Hin as (u & Hu & Hin).
  apply filter_In in Hin as [Hin _].
  rewrite <- Hu. by apply list_elem_of_In, in_map.
Qed.

Import Lessons.Chapter5.

(** X1.  Dispatching [TOGGLE_TASK] twice with the same id gives back the
    state it started from, whatever tasks the state holds. *)
Theorem toggle_task_twice_restores_state sys1 sys2 state id :
  taskReducer sys2 (taskReducer sys1 state (TOGGLE_TASK id)) (TOGGLE_TASK id) = state.
Proof. destruct state as [tasks f]. simpl. by rewrite toggle_map_twice. Qed.

(** X2.  The reducer keeps task ids unique: from a state without repeated
    ids, an action leads to a state without repeated ids, provided that
    [ADD_TASK] draws an id no task has and the payload of [LOAD_TASKS] has no
    repeated ids. *)
Theorem reducer_keeps_ids_unique sys state action :
  NoDup (ids (TaskState.tasks state)) ->
  admissible sys state action ->
  NoDup (ids (TaskState.tasks (taskReducer sys state action))).
Proof.
  intros Hnd Hok. destruct action as [title|id|id|f|tasks]; simpl in *.
  - apply NoDup_cons. by split.
  - by rewrite toggle_map_ids.
  - by apply NoDup_ids_filter.
  - exact Hnd.
  - unfold ids. rewrite map_app. apply NoDup_app. split; [|split].
    + by apply NoDup_ids_filter.
    + intros x Hx Hx'.
      apply list_elem_of_In, in_map_iff in Hx as (t & <- & Ht).
      apply filter_In in Ht as [_ Ht]. apply negb_true_iff, bool_decide_eq_false in Ht.
      apply Ht. by apply elem_of_list_to_set.
    + exact Hnd.
Qed.

(** X3.  After [DELETE_TASK] no task with that id is left, and deleting the
    same id again changes nothing. *)
Theorem delete_task_removes_id sys1 sys2 state id :
  (id ∉ ids (TaskState.tasks (taskReducer sys1 state (DELETE_TASK id)))) /\
  taskReducer sys2 (taskReducer sys1 state (DELETE_TASK id)) (DELETE_TASK id)
  = taskReducer sys1 state (DELETE_TASK id).
Proof.
  assert (Hgone : id ∉ ids (TaskState.tasks (taskReducer sys1 state (DELETE_TASK id)))).
  { simpl. intros Hin.
    apply list_elem_of_In, in_map_iff in Hin as (t & Ht & Hin).
    apply filter_In in Hin as [_ Hin].
    apply negb_true_iff, String.eqb_neq in Hin. contradiction. }
  split; [exact Hgone|].
  simpl in *. f_equal. by apply delete_filter_absent.
Qed.

(** X4.  [TOGGLE_TASK] and [DELETE_TASK] for an id that no task has return
    the state unchanged. *)
Theorem unknown_id_leaves_state_unchanged sys state id :
  id ∉ ids (TaskState.tasks state) ->
  taskReducer sys state (TOGGLE_TASK id) = state /\
  taskReducer sys state (DELETE_TASK id) = state.
Proof.
  intros H. destruct state as [tasks f]. simpl in *.
  by rewrite toggle_map_absent, delete_filter_absent.
Qed.

(** X5.  Deleting the task that [ADD_TASK] has just added, by the id drawn
    for it, restores the state when that id was fresh. *)
Theorem add_then_delete_restores_state sys1 sys2 state title :
  randomUUID sys1 ∉ ids (TaskState.tasks state) ->
  taskReducer sys2 (taskReducer sys1 state (ADD_TASK title)) (DELETE_TASK (randomUUID sys1))
  = state.
Proof.
  intros H. destruct state as [tasks f]. simpl in *.
  rewrite String.eqb_refl. simpl. by rewrite delete_filter_absent.
Qed.

(** X6.  [LOAD_TASKS] of [src/context/TaskContext.tsx] is idempotent: loading
    the same payload a second time adds nothing. *)
Theorem load_tasks_twice_is_load_once sys1 sys2 state tasks :
  taskReducer sys2 (taskReducer sys1 state (LOAD_TASKS tasks)) (LOAD_TASKS tasks)
  = taskReducer sys1 state (LOAD_TASKS tasks).
Proof.
  destruct state as [old f]. simpl. f_equal.
  rewrite (filter_all_false _ tasks); [reflexivity|].
  intros t Ht. apply negb_false_iff, bool_decide_eq_true, elem_of_list_to_set.
  unfold ids. rewrite map_app. apply elem_of_app.
  destruct (decide (Task.id t ∈ map Task.id old)) as [Hold|Hnew]; [by right|left].
  apply list_elem_of_In, in_map, filter_In. split; [exact Ht|].
  apply negb_true_iff, bool_decide_eq_false. by rewrite elem_of_list_to_set.
Qed.

(** X7.  The reducer of the concepts section and the reducer of the project
    task agree on every action, unless [LOAD_TASKS] carries a task whose id
    the state already has. *)
Theorem concept_reducer_agrees_on_new_ids sys state action :
  (forall tasks, action = LOAD_TASKS tasks ->
     forall t, t ∈ tasks -> Task.id t ∉ ids (TaskState.tasks state)) ->
  Concepts.taskReducer sys state action = taskReducer sys state action.
Proof.
  intros H. destruct action as [title|id|id|f|tasks]; try reflexivity.
  simpl. f_equal. symmetry. f_equal. apply filter_all_true. intros t Ht.
  apply negb_true_iff, bool_decide_eq_false. rewrite elem_of_list_to_set.
  apply (H tasks eq_refl). by apply list_elem_of_In.
Qed.

Lemma filter_partition_length {A} (p : A -> bool) (l : list A) :
  length (List.filter p l) + length (List.filter (fun x => negb (p x)) l) = length l.
Proof.
  induction l as [|x l IH]; [reflexivity|]. simpl.
  destruct (p x); simpl; lia.
Qed.

(** X8.  The derived values of [TaskProvider]: under [all] every task is
    shown, the active and the completed tasks together are as many as all
    tasks, [activeCount] is the number of tasks shown under [active], and a
    shown task is always a task of the state. *)
Theorem filtered_tasks_partition sys state :
  filteredTasks (taskReducer sys state (SET_FILTER FilterAll)) = TaskState.tasks state /\
  length (filteredTasks (taskReducer sys state (SET_FILTER FilterActive)))
  + length (filteredTasks (taskReducer sys state (SET_FILTER FilterCompleted)))
  = length (TaskState.tasks state) /\
  activeCount state = length (filteredTasks (taskReducer sys state (SET_FILTER FilterActive))) /\
  (forall t, t ∈ filteredTasks state -> t ∈ TaskState.tasks state).
Proof.
  split; [reflexivity|]. split; [|split; [reflexivity|]].
  - unfold filteredTasks. simpl.
    rewrite Nat.add_comm. apply filter_partition_length.
  - intros t Ht. unfold filteredTasks in Ht.
    destruct (TaskState.filter state); [exact Ht| |];
      apply list_elem_of_In, filter_In in Ht as [Ht _]; by apply list_elem_of_In.
Qed.

Lemma active_count_toggle (l : list Task.t) (t : Task.t) :
  NoDup (ids l) -> In t l ->
  let toggled := map (fun u => if String.eqb (Task.id u) (Task.id t) then flip_completed u else u) l in
  let count := fun l => length (List.filter (fun u => negb (Task.completed u)) l) in
  if Task.completed t then count toggled = S (count l) else S (count toggled) = count l.
Proof.
  induction l as [|u l IH]; intros Hnd Hin; [destruct Hin|].
  unfold ids in Hnd. simpl in Hnd. apply NoDup_cons in Hnd as [Hu Hnd].
  destruct Hin as [->|Hin].
  - simpl. rewrite String.eqb_refl.
    rewrite (toggle_map_absent (Task.id t) l Hu).
    destruct t as [i ti [] d]; reflexivity.
  - assert (Hne : String.eqb (Task.id u) (Task.id t) = false).
    { apply String.eqb_neq. intros E. apply Hu. rewrite E.
      by apply list_elem_of_In, in_map. }
    specialize (IH Hnd Hin). simpl in *. rewrite Hne.
    destruct (Task.completed t), (Task.completed u); simpl; congruence.
Qed.

(** X9.  With unique ids, toggling a task of the state moves [activeCount] by
    exactly one: up when the task was completed, down when it was active. *)
Theorem toggle_moves_active_count_by_one sys state t :
  NoDup (ids (TaskState.tasks state)) ->
  t ∈ TaskState.tasks state ->
  if Task.completed t
  then activeCount (taskReducer sys state (TOGGLE_TASK (Task.id t))) = S (activeCount state)
  else S (activeCount (taskReducer sys state (TOGGLE_TASK (Task.id t)))) = activeCount state.
Proof.
  intros Hnd Hin. apply list_elem_of_In in Hin.
  exact (active_count_toggle _ t Hnd Hin).
Qed.

(** X10.  [ADD_TASK] raises [activeCount] by one and keeps the filter; the new
    task is shown exactly when the filter is not [completed]. *)
Theorem added_task_is_active_and_shown sys state title :
  let state' := taskReducer sys state (ADD_TASK title) in
  activeCount state' = S (activeCount state) /\
  TaskState.filter state' = TaskState.filter state /\
  (new_task sys title ∈ filteredTasks state' <-> TaskState.filter state <> FilterCompleted).
Proof.
  simpl. split; [reflexivity|]. split; [reflexivity|].
  unfold filteredTasks. simpl. destruct (TaskState.filter state); simpl.
  - split; [discriminate | intros _; apply list_elem_of_here].
  - split; [discriminate | intros _; apply list_elem_of_here].
  - split; [|congruence]. intros Hin.
    apply list_elem_of_In, filter_In in Hin as [_ Hin]. discriminate.
Qed.

(** X11.  Dismissing a notification right after adding it restores the list,
    when its id was not in use. *)
Theorem notification_add_then_dismiss state n :
  Notification.id n ∉ map Notification.id state ->
  notifReducer (notifReducer state (ADD n)) (DISMISS (Notification.id n)) = state.
Proof.
  intros H. simpl. rewrite List.filter_app. simpl. rewrite String.eqb_refl. simpl.
  rewrite app_nil_r. apply filter_all_true. intros m Hm.
  apply negb_true_iff, String.eqb_neq. intros E. apply H. rewrite <- E.
  by apply list_elem_of_In, in_map.
Qed.

(** X12.  [DISMISS] removes every notification with the given id and keeps
    every other one. *)
Theorem dismiss_removes_every_match state id :
  (id ∉ map Notification.id (notifReducer state (DISMISS id))) /\
  (forall n, n ∈ state -> Notification.id n <> id -> n ∈ notifReducer state (DISMISS id)).
Proof.
  split.
  - simpl. intros Hin.
    apply list_elem_of_In, in_map_iff in Hin as (n & Hn & Hin).
    apply filter_In in Hin as [_ Hin].
    apply negb_true_iff, String.eqb_neq in Hin. contradiction.
  - intros n Hn Hne. simpl. apply list_elem_of_In, filter_In.
    split; [by apply list_elem_of_In|]. by apply negb_true_iff, String.eqb_neq.
Qed.

Lemma stored_theme_name theme : stored_theme (Some (theme_name theme)) = Some theme.
Proof. by destruct theme. Qed.

(** X13.  The theme that the effect of [ThemeProvider] writes is the theme a
    later mount starts with; the effect sets [data-theme] and leaves the
    other [localStorage] keys alone. *)
Theorem synced_theme_is_restored theme b :
  initialTheme (syncTheme theme b) = theme /\
  attributes (syncTheme theme b) !! "data-theme" = Some (theme_name theme) /\
  (forall key, key <> "taskflow-theme" ->
     localStorage (syncTheme theme b) !! key = localStorage b !! key).
Proof.
  unfold initialTheme, syncTheme. simpl. split; [|split].
  - by rewrite lookup_insert_eq, stored_theme_name.
  - by rewrite lookup_insert_eq.
  - intros key Hkey. by rewrite lookup_insert_ne.
Qed.

(** X14.  The [ThemeProvider] of the Tailwind chapter: after its effect the
    [dark] class is present exactly for the dark theme, other classes are
    untouched, a later mount starts with the synced theme whatever the system
    preference, and running the effect again changes nothing. *)
Theorem dark_class_follows_theme theme b :
  Chapter10.initialTheme (Chapter10.syncTheme theme b) = theme /\
  ("dark" ∈ classList (Chapter10.syncTheme theme b) <-> theme = dark) /\
  (forall c, c <> "dark" -> c ∈ classList (Chapter10.syncTheme theme b) <-> c ∈ classList b) /\
  Chapter10.syncTheme theme (Chapter10.syncTheme theme b) = Chapter10.syncTheme theme b.
Proof.
  unfold Chapter10.initialTheme, Chapter10.syncTheme. simpl. split; [|split; [|split]].
  - by rewrite lookup_insert_eq, stored_theme_name.
  - destruct theme.
    + rewrite elem_of_difference, elem_of_singleton. split; [intros [_ H]; done | discriminate].
    + rewrite elem_of_union, elem_of_singleton. split; [done | intros _; by left].
  - intros c Hc. destruct theme.
    + rewrite elem_of_difference, elem_of_singleton. tauto.
    + rewrite elem_of_union, elem_of_singleton. tauto.
  - rewrite insert_insert_eq. f_equal. destruct theme; apply set_eq; intros c.
    + rewrite !elem_of_difference. tauto.
    + rewrite !elem_of_union. tauto.
Qed.

(** X15.  The two [ThemeProvider]s start with the same theme exactly when a
    valid theme is stored or the system does not prefer dark; otherwise the
    provider of the context chapter starts light and the provider of the
    Tailwind chapter starts dark. *)
Theorem providers_agree_unless_system_prefers_dark b :
  (Chapter10.initialTheme b = initialTheme b <->
   is_Some (stored_theme (localStorage b !! "taskflow-theme")) \/ prefersDark b = false) /\
  (Chapter10.initialTheme b <> initialTheme b ->
   initialTheme b = light /\ Chapter10.initialTheme b = dark).
Proof.
  unfold Chapter10.initialTheme, initialTheme.
  destruct (stored_theme (localStorage b !! "taskflow-theme")) as [t|]; simpl.
  - split; [|done]. split; [intros _; left; eauto | reflexivity].
  - destruct (prefersDark b); split; try done.
    + split; [discriminate|]. intros [[? [=]]|[=]].
    + split; [intros _; by right | reflexivity].
Qed.

(** The reducer and the derived values of the context chapter compute what
    the [useState] handlers and derived values of the state chapter
    compute. *)
Lemma reducer_refines_chapter2_handlers sys state title id :
  TaskState.tasks (taskReducer sys state (ADD_TASK title))
    = Chapter2.addTask sys title (TaskState.tasks state) /\
  TaskState.tasks (taskReducer sys state (TOGGLE_TASK id))
    = Chapter2.toggleTask id (TaskState.tasks state) /\
  TaskState.tasks (taskReducer sys state (DELETE_TASK id))
    = Chapter2.deleteTask id (TaskState.tasks state) /\
  filteredTasks state = Chapter2.filteredTasks (TaskState.tasks state) (TaskState.filter state) /\
  activeCount state = Chapter2.activeCount (TaskState.tasks state).
Proof. repeat split. Qed.

Import Lessons.Chapter2.

Lemma includes_spec tags tag : includes tags tag = true <-> tag ∈ tags.
Proof.
  unfold includes. rewrite existsb_exists, list_elem_of_In. split.
  - intros (x & Hx & E). apply String.eqb_eq in E. by subst.
  - intros H. exists tag. split; [exact H | apply String.eqb_refl].
Qed.

Lemma remove_absent tag (tags : list string) :
  tag ∉ tags -> List.filter (fun t => negb (String.eqb t tag)) tags = tags.
Proof.
  intros H. apply filter_all_true. intros t Ht.
  apply negb_true_iff, String.eqb_neq. intros ->. by apply H, list_elem_of_In.
Qed.

Lemma NoDup_list_filter {A} (p : A -> bool) (l : list A) : NoDup l -> NoDup (List.filter p l).
Proof.
  induction 1 as [|x l Hx Hl IH]; [constructor|]. simpl.
  destruct (p x); [|exact IH]. constructor; [|exact IH].
  intros Hin. apply Hx. apply list_elem_of_In, filter_In in Hin as [Hin _].
  by apply list_elem_of_In.
Qed.

(** X16.  [TagManager] keeps its tags distinct and never stores an empty
    tag, whatever the input normalises to, when [addTag] comes from a render
    that shows the tags its update reaches; after [removeTag] the tag is
    gone. *)
Theorem tag_manager_keeps_tags_distinct normalize render prev tag :
  TagManager.tags render = TagManager.tags prev ->
  NoDup (TagManager.tags prev) -> "" ∉ TagManager.tags prev ->
  NoDup (TagManager.tags (addTag normalize render prev)) /\
  ("" ∉ TagManager.tags (addTag normalize render prev)) /\
  NoDup (TagManager.tags (removeTag tag prev)) /\
  (tag ∉ TagManager.tags (removeTag tag prev)).
Proof.
  intros Hsame Hnd Hne.
  assert (Hrm : NoDup (TagManager.tags (removeTag tag prev)) /\
                tag ∉ TagManager.tags (removeTag tag prev)).
  { split; [by apply NoDup_list_filter|]. simpl. intros Hin.
    apply list_elem_of_In, filter_In in Hin as [_ Hin].
    by rewrite String.eqb_refl in Hin. }
  unfold addTag.
  destruct (String.eqb (normalize (TagManager.input render)) "") eqn:E; simpl;
    [by destruct Hrm|].
  destruct (includes (TagManager.tags render) (normalize (TagManager.input render))) eqn:I;
    simpl; [by destruct Hrm|].
  split; [|split; [|exact Hrm]].
  - apply NoDup_app. split; [done|]. split; [|apply NoDup_singleton].
    intros x Hx Hx'. apply list_elem_of_singleton in Hx'. subst x.
    rewrite <- Hsame in Hx. apply includes_spec in Hx. congruence.
  - intros Hin. apply elem_of_app in Hin as [Hin|Hin]; [done|].
    apply list_elem_of_singleton in Hin. apply String.eqb_neq in E. congruence.
Qed.

(** X17.  Removing the tag that [addTag] took from the input restores the
    tags its update was applied to, when the tag was not among them,
    whichever render the handler came from. *)
Theorem add_tag_then_remove_restores_tags normalize render prev :
  normalize (TagManager.input render) ∉ TagManager.tags prev ->
  TagManager.tags (removeTag (normalize (TagManager.input render)) (addTag normalize render prev))
  = TagManager.tags prev.
Proof.
  intros H. unfold addTag.
  destruct (negb (String.eqb (normalize (TagManager.input render)) "")
            && negb (includes (TagManager.tags render) (normalize (TagManager.input render))));
    simpl.
  - rewrite List.filter_app. simpl. rewrite String.eqb_refl. simpl.
    rewrite app_nil_r. by apply remove_absent.
  - by apply remove_absent.
Qed.

(** X18.  Two calls of the [addTag] of one render both pass its [includes]
    test: a tag that is new to the render is appended twice. *)
Theorem add_tag_twice_from_one_render_repeats_tag normalize render :
  normalize (TagManager.input render) <> "" ->
  normalize (TagManager.input render) ∉ TagManager.tags render ->
  TagManager.tags (addTag normalize render (addTag normalize render render))
  = TagManager.tags render
    ++ [normalize (TagManager.input render); normalize (TagManager.input render)].
Proof.
  intros Hne Hnew. unfold addTag.
  apply String.eqb_neq in Hne. rewrite Hne.
  assert (I : includes (TagManager.tags render) (normalize (TagManager.input render)) = false).
  { destruct (includes _ _) eqn:I; [|reflexivity]. by apply includes_spec in I. }
  rewrite I. simpl. by rewrite <- app_assoc.
Qed.

(** ** Instances of the statements above that carry a hypothesis *)

Import LessonSamples.

Lemma reducer_keeps_ids_unique_witness :
  NoDup (ids (TaskState.tasks state0)) /\
  admissible sys0 state0 (ADD_TASK "Ship it") /\
  NoDup (ids (TaskState.tasks (taskReducer sys0 state0 (ADD_TASK "Ship it")))).
Proof.
  assert (H1 : NoDup (ids (TaskState.tasks state0))) by by_computation.
  assert (H2 : admissible sys0 state0 (ADD_TASK "Ship it")).
  { change (randomUUID sys0 ∉ ids (TaskState.tasks state0)). by_computation. }
  split; [exact H1|]. split; [exact H2|].
  apply (reducer_keeps_ids_unique sys0 state0 (ADD_TASK "Ship it") H1 H2).
Defined.

Lemma unknown_id_leaves_state_unchanged_witness :
  ("9" ∉ ids (TaskState.tasks state0)) /\
  taskReducer sys0 state0 (TOGGLE_TASK "9") = state0 /\
  taskReducer sys0 state0 (DELETE_TASK "9") = state0.
Proof.
  assert (H : "9" ∉ ids (TaskState.tasks state0)) by by_computation.
  split; [exact H|]. apply (unknown_id_leaves_state_unchanged sys0 state0 "9" H).
Defined.

Lemma add_then_delete_restores_state_witness :
  (randomUUID sys0 ∉ ids (TaskState.tasks state0)) /\
  taskReducer sys0 (taskReducer sys0 state0 (ADD_TASK "Ship it")) (DELETE_TASK (randomUUID sys0))
  = state0.
Proof.
  assert (H : randomUUID sys0 ∉ ids (TaskState.tasks state0)) by by_computation.
  split; [exact H|]. apply (add_then_delete_restores_state sys0 sys0 state0 "Ship it" H).
Defined.

Lemma concept_reducer_agrees_on_new_ids_witness :
  Concepts.taskReducer sys0 state0 (LOAD_TASKS [task4])
  = taskReducer sys0 state0 (LOAD_TASKS [task4]).
Proof.
  apply (concept_reducer_agrees_on_new_ids sys0 state0 (LOAD_TASKS [task4])).
  intros tasks [= <-] t Ht. apply list_elem_of_singleton in Ht as ->. by_computation.
Defined.

Lemma toggle_moves_active_count_by_one_witness :
  NoDup (ids (TaskState.tasks state0)) /\
  task2 ∈ TaskState.tasks state0 /\
  S (Chapter5.activeCount (taskReducer sys0 state0 (TOGGLE_TASK "2")))
  = Chapter5.activeCount state0.
Proof.
  assert (H1 : NoDup (ids (TaskState.tasks state0))) by by_computation.
  assert (H2 : task2 ∈ TaskState.tasks state0)
    by (apply (list_elem_of_lookup_2 _ 1); reflexivity).
  split; [exact H1|]. split; [exact H2|].
  apply (toggle_moves_active_count_by_one sys0 state0 task2 H1 H2).
Defined.

Lemma notification_add_then_dismiss_witness :
  (Notification.id failed ∉ map Notification.id [saved]) /\
  notifReducer (notifReducer [saved] (ADD failed)) (DISMISS (Notification.id failed)) = [saved].
Proof.
  assert (H : Notification.id failed ∉ map Notification.id [saved]) by by_computation.
  split; [exact H|]. apply (notification_add_then_dismiss [saved] failed H).
Defined.

Lemma providers_agree_unless_system_prefers_dark_witness :
  Chapter10.initialTheme first_visit_dark <> initialTheme first_visit_dark /\
  initialTheme first_visit_dark = light /\ Chapter10.initialTheme first_visit_dark = dark.
Proof.
  assert (H : Chapter10.initialTheme first_visit_dark <> initialTheme first_visit_dark)
    by (vm_compute; discriminate).
  split; [exact H|].
  destruct (providers_agree_unless_system_prefers_dark first_visit_dark) as [_ Hdiff].
  exact (Hdiff H).
Defined.

Lemma tag_manager_keeps_tags_distinct_witness :
  TagManager.tags tags0 = TagManager.tags tags0 /\
  NoDup (TagManager.tags tags0) /\ ("" ∉ TagManager.tags tags0) /\
  NoDup (TagManager.tags (addTag as_typed tags0 tags0)) /\
  ("" ∉ TagManager.tags (addTag as_typed tags0 tags0)) /\
  NoDup (TagManager.tags (removeTag "react" tags0)) /\
  ("react" ∉ TagManager.tags (removeTag "react" tags0)).
Proof.
  assert (H1 : NoDup (TagManager.tags tags0)) by by_computation.
  assert (H2 : "" ∉ TagManager.tags tags0) by by_computation.
  split; [reflexivity|]. split; [exact H1|]. split; [exact H2|].
  apply (tag_manager_keeps_tags_distinct as_typed tags0 tags0 "react" eq_refl H1 H2).
Defined.

(** The handler of the first render, applied after a pending [removeTag]. *)
Lemma add_tag_then_remove_restores_tags_witness :
  (as_typed (TagManager.input tags0) ∉ TagManager.tags (removeTag "react" tags0)) /\
  TagManager.tags (addTag as_typed tags0 (removeTag "react" tags0)) = ["typescript"; "hooks"] /\
  TagManager.tags (removeTag "hooks" (addTag as_typed tags0 (removeTag "react" tags0)))
  = ["typescript"].
Proof.
  assert (H : as_typed (TagManager.input tags0) ∉ TagManager.tags (removeTag "react" tags0))
    by by_computation.
  split; [exact H|]. split; [reflexivity|].
  apply (add_tag_then_remove_restores_tags as_typed tags0 (removeTag "react" tags0) H).
Defined.

Lemma add_tag_twice_from_one_render_repeats_tag_witness :
  as_typed (TagManager.input tags0) <> "" /\
  (as_typed (TagManager.input tags0) ∉ TagManager.tags tags0) /\
  TagManager.tags (addTag as_typed tags0 (addTag as_typed tags0 tags0))
  = ["react"; "typescript"; "hooks"; "hooks"].
Proof.
  assert (H1 : as_typed (TagManager.input tags0) <> "") by discriminate.
  assert (H2 : as_typed (TagManager.input tags0) ∉ TagManager.tags tags0) by by_computation.
  split; [exact H1|]. split; [exact H2|].
  apply (add_tag_twice_from_one_render_repeats_tag as_typed tags0 H1 H2).
Defined.
